(** * google_calendar plugin of hal-9001: cache, lazy refresh and spam guard

    A shallow embedding of the plugin's chat handler, its operator commands
    and its two per-room caches, followed by the properties proved about
    them.

    Conventions of the embedding:
    - [time.Time] is the number of nanoseconds since the zero instant
      [time.Time{}], a [Z]; [time.Duration] is an int64 count of nanoseconds,
      and [Time.Sub] saturates as Go's does.
    - The package-level map [configCache] holds one heap object per room; a
      [*Config] is [None] (nil) or the key of the registry entry it points to,
      so every alias of a room's config reads and writes the same object.
    - Mutable package state, the KV store, the wall clock and a ghost trace of
      the externally visible calls are threaded through a state monad whose
      second outcome is a Go run-time panic.
    - The wall clock does not advance inside one handler run.
    - Locks are kept only for their nil check: runs are sequential here.
    - [log.Printf] output is not part of the model. *)

From Stdlib Require Import ZArith String Ascii List Bool Lia.
From stdpp Require Import gmap strings.
Import ListNotations.

Local Open Scope string_scope.
Local Open Scope Z_scope.

(** ** Time *)

Definition Nanosecond : Z := 1.
Definition Second : Z := 1000000000 * Nanosecond.
Definition Minute : Z := 60 * Second.
Definition Hour : Z := 60 * Minute.

Definition minDuration : Z := - 2 ^ 63.
Definition maxDuration : Z := 2 ^ 63 - 1.

(** [time.Time{}] *)
Definition zeroTime : Z := 0.

(** [t.Sub(u)]: the difference, saturated to the int64 range of a Duration. *)
Definition Sub (t u : Z) : Z := Z.max minDuration (Z.min maxDuration (t - u)).

(** [t.Before(u)] and [t.After(u)] *)
Definition Before (t u : Z) : bool := t <? u.
Definition After (t u : Z) : bool := u <? t.

(** [age.Minutes() > 10].  [Minutes] is
    [float64(d / Minute) + float64(d % Minute) / 6e10]; the fraction of a
    whole number of nanoseconds is at least 1.6e-11 away from the next
    minute, far above the spacing of doubles near 10, so the floating-point
    test holds exactly when the duration exceeds ten minutes. *)
Definition MinutesOver10 (d : Z) : bool := 10 * Minute <? d.

(** [calAge.Hours() > 1.1].  At 66 minutes [Hours] evaluates to the double
    nearest 1.1, which is the constant it is compared with; one nanosecond
    more or less moves it by 2.7e-13, so the test holds exactly when the
    duration exceeds 66 minutes. *)
Definition HoursOver1_1 (d : Z) : bool := 66 * Minute <? d.

(** ** Text *)

Definition emptyString : string := EmptyString.

(** [strings.HasPrefix(s, prefix)] *)
Definition HasPrefix (s prefix : string) : bool := String.prefix prefix s.

(** Formatted text is kept symbolic: a literal, or a format with its
    arguments.  A Go [error] is the text of its message. *)
Inductive Text : Type :=
| Lit (s : string)
| Sprintf (format : string) (args : list Arg)
with Arg : Type :=
| AStr (s : string)
| AText (t : Text)
| AMinutes (d : Z)
| ADuration (d : Z).

Definition error : Type := Text.
Definition Errorf (format : string) (args : list Arg) : error := Sprintf format args.

(** [strconv.ParseBool] *)
Definition ParseBool (str : string) : option bool :=
  if existsb (String.eqb str) ["1"; "t"; "T"; "TRUE"; "true"; "True"] then Some true
  else if existsb (String.eqb str) ["0"; "f"; "F"; "FALSE"; "false"; "False"] then Some false
  else None.

(** ** Data *)

(** The calendar entry as the handler uses it. *)
Module CalEvent.
Record t : Type := mk {
  Name : string;
  Description : string;
  Start : Z;
  End_ : Z
}.
End CalEvent.

Module Config.
Record t : Type := mk {
  RoomId : string;
  CalendarId : string;
  Timezone : string;
  Autoreply : bool;
  AnnounceStart : bool;
  AnnounceEnd : bool;
  CalEvents : list CalEvent.t;
  LastReply : Z;
  configTs : Z;
  calTs : Z
}.

(** [Config{RoomId: roomId}] *)
Definition zero (roomId : string) : t :=
  mk roomId emptyString emptyString false false false [] zeroTime zeroTime zeroTime.

Definition set_CalendarId (v : string) (c : t) : t :=
  mk (RoomId c) v (Timezone c) (Autoreply c) (AnnounceStart c) (AnnounceEnd c)
     (CalEvents c) (LastReply c) (configTs c) (calTs c).
Definition set_Timezone (v : string) (c : t) : t :=
  mk (RoomId c) (CalendarId c) v (Autoreply c) (AnnounceStart c) (AnnounceEnd c)
     (CalEvents c) (LastReply c) (configTs c) (calTs c).
Definition set_Autoreply (v : bool) (c : t) : t :=
  mk (RoomId c) (CalendarId c) (Timezone c) v (AnnounceStart c) (AnnounceEnd c)
     (CalEvents c) (LastReply c) (configTs c) (calTs c).
Definition set_AnnounceStart (v : bool) (c : t) : t :=
  mk (RoomId c) (CalendarId c) (Timezone c) (Autoreply c) v (AnnounceEnd c)
     (CalEvents c) (LastReply c) (configTs c) (calTs c).
Definition set_AnnounceEnd (v : bool) (c : t) : t :=
  mk (RoomId c) (CalendarId c) (Timezone c) (Autoreply c) (AnnounceStart c) v
     (CalEvents c) (LastReply c) (configTs c) (calTs c).
Definition set_CalEvents (v : list CalEvent.t) (c : t) : t :=
  mk (RoomId c) (CalendarId c) (Timezone c) (Autoreply c) (AnnounceStart c)
     (AnnounceEnd c) v (LastReply c) (configTs c) (calTs c).
Definition set_configTs (v : Z) (c : t) : t :=
  mk (RoomId c) (CalendarId c) (Timezone c) (Autoreply c) (AnnounceStart c)
     (AnnounceEnd c) (CalEvents c) (LastReply c) v (calTs c).
Definition set_calTs (v : Z) (c : t) : t :=
  mk (RoomId c) (CalendarId c) (Timezone c) (Autoreply c) (AnnounceStart c)
     (AnnounceEnd c) (CalEvents c) (LastReply c) (configTs c) v.
End Config.

(** The fields of [hal.Evt] that the plugin reads. *)
Module Evt.
Record t : Type := mk {
  IsChat : bool;
  Body : string;
  RoomId : string;
  UserId : string
}.
End Evt.

(** The fields of [hal.Pref] that the plugin reads. *)
Module Pref.
Record t : Type := mk {
  Value : string;
  Success : bool;
  Error : error
}.
End Pref.

(** An entry of the KV store: the value and the instant it expires at. *)
Module KVEntry.
Record t : Type := mk {
  value : string;
  expires : Z
}.
End KVEntry.

(** The calls that leave the plugin, in the order they are made. *)
Inductive Effect : Type :=
| EReply (msg : Text)
| EGetEvents (calendarId : string) (asOf : Z)
| ELoadFromPrefs (roomId : string)
| ESetKV (key value : string) (ttl : Z).

Record World : Type := mkWorld {
  configCache : gmap string Config.t;
  kv : gmap string KVEntry.t;
  clock : Z;
  effects : list Effect
}.

Definition with_configCache (m : gmap string Config.t) (w : World) : World :=
  mkWorld m (kv w) (clock w) (effects w).
Definition with_kv (m : gmap string KVEntry.t) (w : World) : World :=
  mkWorld (configCache w) m (clock w) (effects w).
Definition with_effects (l : list Effect) (w : World) : World :=
  mkWorld (configCache w) (kv w) (clock w) l.

(** ** The monad of handler runs *)

Inductive Panic : Type :=
| NilDereference
| IndexOutOfRange.

Inductive Result (A : Type) : Type :=
| Done (a : A) (w : World)
| Panicked (p : Panic) (w : World).
Arguments Done {A} a w.
Arguments Panicked {A} p w.

Definition M (A : Type) : Type := World -> Result A.

Definition ret {A : Type} (a : A) : M A := fun w => Done a w.

Definition bind {A B : Type} (m : M A) (k : A -> M B) : M B :=
  fun w =>
    match m w with
    | Done a w' => k a w'
    | Panicked p w' => Panicked p w'
    end.

Definition panic {A : Type} (p : Panic) : M A := fun w => Panicked p w.

Notation "x <- m ;; k" := (bind m (fun x => k))
  (at level 100, m at next level, right associativity).
Notation "m ;;; k" := (bind m (fun _ => k))
  (at level 100, right associativity).

Definition emit (e : Effect) : M unit :=
  fun w => Done tt (with_effects (effects w ++ [e]) w).

(** [time.Now()] *)
Definition Now : M Z := fun w => Done (clock w) w.

(** The final world of a run, whichever way it ended. *)
Definition world_of {A : Type} (r : Result A) : World :=
  match r with
  | Done _ w => w
  | Panicked _ w => w
  end.

(** ** Collaborators

    What the plugin calls and this file does not define: the calendar fetch
    [getEvents] of the same package, the [hal] preference lookup and argv
    splitting, and the Go library functions whose results are only passed
    on. *)
Class Collaborators : Type := {
  (** [getEvents(calendarId, now)] *)
  getEvents : string -> Z -> list CalEvent.t + error;
  (** [hal.GetPref(user, broker, room, plugin, key, def)] *)
  GetPref : string -> string -> string -> string -> string -> string -> Pref.t;
  (** [time.LoadLocation(name)]; a location is known by its name *)
  LoadLocation : string -> string + error;
  (** [time.ParseDuration(s)] *)
  ParseDuration : string -> Z + error;
  (** [t.String()] *)
  TimeString : Z -> string;
  (** [strings.TrimSpace(s)] *)
  TrimSpace : string -> string;
  (** [evt.BodyAsArgv()], from the body *)
  BodyAsArgv : string -> list string
}.

(** ** The KV store *)

(** Modelled from the spec: [hal.GetKV], which is not among the sources.
    The store answers with the value while the key exists and its TTL has
    not run out, that is strictly before the instant it expires at; the
    plugin drops the second result, so an absent or expired key reads as the
    empty string. *)
Definition liveValue (store : gmap string KVEntry.t) (now : Z) (key : string) : string :=
  match store !! key with
  | Some e => if now <? KVEntry.expires e then KVEntry.value e else emptyString
  | None => emptyString
  end.

Definition GetKV (key : string) : M string :=
  fun w => Done (liveValue (kv w) (clock w) key) w.

(** Modelled from the spec: [hal.SetKV], which is not among the sources.
    The key is written with the value and expires [ttl] after the write;
    a later write of the same key replaces value and expiry. *)
Definition SetKV (key value : string) (ttl : Z) : M unit :=
  fun w =>
    Done tt (with_effects (effects w ++ [ESetKV key value ttl])
              (with_kv (<[key := KVEntry.mk value (clock w + ttl)]> (kv w)) w)).

(** ** Pointers to configs *)

(** [configCache[roomId]]: nil for an unknown room. *)
Definition configCache_at (roomId : string) : M (option string) :=
  fun w =>
    match configCache w !! roomId with
    | Some _ => Done (Some roomId) w
    | None => Done None w
    end.

(** Reading through a [*Config]; a nil pointer panics. *)
Definition deref (c : option string) : M Config.t :=
  fun w =>
    match c with
    | Some k =>
        match configCache w !! k with
        | Some cfg => Done cfg w
        | None => Panicked NilDereference w
        end
    | None => Panicked NilDereference w
    end.

(** [c.f] *)
Definition field {A : Type} (c : option string) (f : Config.t -> A) : M A :=
  cfg <- deref c ;; ret (f cfg).

(** [c.f = v], with [set] the setter of the field *)
Definition assign (c : option string) (set : Config.t -> Config.t) : M unit :=
  cfg <- deref c ;;
  fun w =>
    match c with
    | Some k => Done tt (with_configCache (<[k := set cfg]> (configCache w)) w)
    | None => Panicked NilDereference w
    end.

(** [c.mut.Lock()] and [c.mut.Unlock()] *)
Definition Lock (c : option string) : M unit := deref c ;;; ret tt.
Definition Unlock (c : option string) : M unit := deref c ;;; ret tt.

(** [evt.Reply(msg)] and [evt.Replyf(format, args...)] *)
Definition Reply (msg : Text) : M unit := emit (EReply msg).
Definition Replyf (format : string) (args : list Arg) : M unit :=
  emit (EReply (Sprintf format args)).

(** [argv[i]] *)
Definition index (argv : list string) (i : nat) : M string :=
  match nth_error argv i with
  | Some a => ret a
  | None => panic IndexOutOfRange
  end.

(** ** The plugin *)

Definition DefaultTz : string := "America/Los_Angeles".
Definition DefaultMsg : string := "Calendar event: %q".
Definition Usage : string := "!gcal (silence|status|expire|reload)
!gcal silence 4h
!gcal reload


Even when attached, this plugin will not do anything until it is fully configured
for the room. At a mininum the calendar-id needs to be set. One or all of autoreply,
announce-start, and announce-end should be set to true to make anything happen.

Setting up:

    !prefs set --room <roomid> --plugin google_calendar --key calendar-id --value <calendar link>

    autoreply: when set to true, the bot will reply with a message for any activity in the
    room during hours when an event exists on the calendar. If the event has a description
    set, that will be the text sent to the room. Otherwise a default message is generated.
    !prefs set --room <roomid> --plugin google_calendar --key autoreply --value true

    announce-(start|end): the bot will automatically announce when an event is starting or
    ending. The event's description will be included if it is not empty.
    !prefs set --room <roomid> --plugin google_calendar --key announce-start --value true
    !prefs set --room <roomid> --plugin google_calendar --key announce-end --value true

    timezone: optional, tells the bot which timezone to report dates in
    !prefs set --room <roomid> --plugin google_calendar --key timezone --value America/Los_Angeles
".

Definition getUserSpamKey (userId roomId : string) : string :=
  "gcal-spam-" +:+ userId +:+ "-" +:+ roomId.

Definition getRoomSpamKey (roomId : string) : string :=
  "gcal-spam-" +:+ roomId.

(** The registry part of [initData]: a fresh zero config under the room's id.
    The periodic task it also starts runs [updateCachedCalEvents]. *)
Definition initData (roomId : string) : M unit :=
  fun w => Done tt (with_configCache (<[roomId := Config.zero roomId]> (configCache w)) w).

Section Plugin.
Context `{Collaborators}.

Definition loadBoolPref (c : option string) (key : string) : M bool :=
  roomId <- field c Config.RoomId ;;
  let pref := GetPref emptyString emptyString roomId "google_calendar" key "false" in
  match ParseBool (Pref.Value pref) with
  | None => ret false
  | Some val => ret val
  end.

Definition LoadFromPrefs (c : option string) : M (option error) :=
  Lock c ;;;
  roomId <- field c Config.RoomId ;;
  emit (ELoadFromPrefs roomId) ;;;
  let cidpref :=
    GetPref emptyString emptyString roomId "google_calendar" "calendar-id" emptyString in
  if Pref.Success cidpref then
    assign c (Config.set_CalendarId (Pref.Value cidpref)) ;;;
    autoreply <- loadBoolPref c "autoreply" ;;
    assign c (Config.set_Autoreply autoreply) ;;;
    announceStart <- loadBoolPref c "announce-start" ;;
    assign c (Config.set_AnnounceStart announceStart) ;;;
    announceEnd <- loadBoolPref c "announce-end" ;;
    assign c (Config.set_AnnounceEnd announceEnd) ;;;
    let tzpref :=
      GetPref emptyString emptyString roomId "google_calendar" "timezone" DefaultTz in
    match LoadLocation (Pref.Value tzpref) with
    | inr err =>
        Unlock c ;;;
        ret (Some (Errorf "Could not load timezone info for '%s': %s\n"
                     [AStr (Pref.Value tzpref); AText err]))
    | inl tz =>
        assign c (Config.set_Timezone tz) ;;;
        now <- Now ;;
        assign c (Config.set_configTs now) ;;;
        Unlock c ;;;
        ret None
    end
  else
    Unlock c ;;;
    ret (Some (Errorf "Failed to load calendar-id preference for room %q: %s"
                 [AStr roomId; AText (Pref.Error cidpref)])).

Definition expireCaches (c : option string) : M unit :=
  assign c (Config.set_calTs zeroTime) ;;;
  assign c (Config.set_configTs zeroTime).

Definition updateCachedCalEvents (roomId : string) : M unit :=
  now <- Now ;;
  c <- configCache_at roomId ;;
  LoadFromPrefs c ;;;
  calendarId <- field c Config.CalendarId ;;
  emit (EGetEvents calendarId now) ;;;
  match getEvents calendarId now with
  | inr err => ret tt
  | inl evts =>
      Lock c ;;;
      assign c (Config.set_calTs now) ;;;
      assign c (Config.set_CalEvents evts) ;;;
      Unlock c
  end.

Definition getCachedConfig (roomId : string) (now : Z) : M (option string) :=
  c <- configCache_at roomId ;;
  configTs <- field c Config.configTs ;;
  let age := Sub now configTs in
  (if MinutesOver10 age then LoadFromPrefs c ;;; ret tt else ret tt) ;;;
  ret c.

Definition getCachedCalEvents (c : option string) (now : Z)
  : M (list CalEvent.t * option error) :=
  Lock c ;;;
  calTs <- field c Config.calTs ;;
  let calAge := Sub now calTs in
  Unlock c ;;;
  if HoursOver1_1 calAge then
    calendarId <- field c Config.CalendarId ;;
    emit (EGetEvents calendarId now) ;;;
    match getEvents calendarId now with
    | inr err => ret ([], Some err)
    | inl evts =>
        Lock c ;;;
        assign c (Config.set_calTs now) ;;;
        assign c (Config.set_CalEvents evts) ;;;
        Unlock c ;;;
        calEvents <- field c Config.CalEvents ;;
        ret (calEvents, None)
    end
  else
    calEvents <- field c Config.CalEvents ;;
    ret (calEvents, None).

Definition handleCommand (evt : Evt.t) : M unit :=
  let argv := BodyAsArgv (Evt.Body evt) in
  argv0 <- index argv 0 ;;
  if negb (String.eqb argv0 "!gcal") then ret tt
  else if (length argv <? 2)%nat then Replyf Usage []
  else
    now <- Now ;;
    config <- getCachedConfig (Evt.RoomId evt) now ;;
    argv1 <- index argv 1 ;;
    if String.eqb argv1 "status" then
      calTs <- field config Config.calTs ;;
      configTs <- field config Config.configTs ;;
      Replyf "Calendar cache is %.f minutes old. Config cache is %.f minutes old."
        [AMinutes (Sub now calTs); AMinutes (Sub now configTs)]
    else if String.eqb argv1 "help" then Replyf Usage []
    else if String.eqb argv1 "expire" then
      expireCaches config ;;;
      Replyf "config & calendar caches expired" []
    else if String.eqb argv1 "reload" then
      expireCaches config ;;;
      updateCachedCalEvents (Evt.RoomId evt) ;;;
      Replyf "reload complete" []
    else if String.eqb argv1 "silence" then
      if (length argv =? 3)%nat then
        argv2 <- index argv 2 ;;
        match ParseDuration argv2 with
        | inr err =>
            Replyf "Invalid silence duration %q: %s" [AStr argv2; AText err]
        | inl d =>
            let key := getRoomSpamKey (Evt.RoomId evt) in
            SetKV key "-" d ;;;
            Replyf "Calendar notifications silenced for %s." [ADuration d]
        end
      else Reply (Lit "Invalid command. A duration is requried, e.g. !gcal silence 4h")
    else ret tt.

(** The way a run of [handleEvt] ends. *)
Inductive Exit : Type :=
| Ignored            (* not a chat message, or an empty body *)
| Commanded          (* handed to handleCommand *)
| FetchFailed (err : error)   (* the error reply after getCachedCalEvents *)
| AlreadyReplied     (* a spam key is set *)
| Notified (msg : Text)       (* replied inside the loop, then break *)
| Silent.            (* the loop ran out *)

(** The condition of the already-replied check: one of the two values read
    from the spam keys is not the empty string. *)
Definition spamKeySet (userTs roomTs : string) : bool :=
  negb (String.eqb userTs emptyString) || negb (String.eqb roomTs emptyString).

(** The [for _, e := range calEvents] loop of [handleEvt]. *)
Fixpoint autoreplyLoop (config : option string) (now : Z)
    (userSpamKey roomSpamKey : string) (calEvents : list CalEvent.t) : M Exit :=
  match calEvents with
  | [] => ret Silent
  | e :: rest =>
      autoreply <- field config Config.Autoreply ;;
      if autoreply && Before (CalEvent.Start e) now && After (CalEvent.End_ e) now then
        let msg :=
          if String.eqb (CalEvent.Description e) emptyString
          then Sprintf DefaultMsg [AStr (CalEvent.Name e)]
          else Lit (CalEvent.Description e) in
        Reply msg ;;;
        SetKV userSpamKey (TimeString now) (Hour * 2) ;;;
        SetKV roomSpamKey (TimeString now) (Minute * 10) ;;;
        ret (Notified msg)
      else autoreplyLoop config now userSpamKey roomSpamKey rest
  end.

Definition handleEvt (evt : Evt.t) : M Exit :=
  if negb (Evt.IsChat evt) || String.eqb (Evt.Body evt) emptyString then ret Ignored
  else if HasPrefix (TrimSpace (Evt.Body evt)) "!" then
    handleCommand evt ;;; ret Commanded
  else
    now <- Now ;;
    let userSpamKey := getUserSpamKey (Evt.RoomId evt) (Evt.UserId evt) in
    userTs <- GetKV userSpamKey ;;
    let roomSpamKey := getRoomSpamKey (Evt.RoomId evt) in
    roomTs <- GetKV roomSpamKey ;;
    config <- getCachedConfig (Evt.RoomId evt) now ;;
    r <- getCachedCalEvents config now ;;
    match snd r with
    | Some err =>
        Replyf "Error while getting calendar data: %s" [AText err] ;;;
        ret (FetchFailed err)
    | None =>
        if spamKeySet userTs roomTs then ret AlreadyReplied
        else autoreplyLoop config now userSpamKey roomSpamKey (fst r)
    end.

End Plugin.

(** ** Vocabulary of the statements *)

(** The world in which the object of room [k] has become [cfg]. *)
Definition put (k : string) (cfg : Config.t) (w : World) : World :=
  with_configCache (<[k := cfg]> (configCache w)) w.

(** The world in which [l] has been added to the trace. *)
Definition said (l : list Effect) (w : World) : World :=
  with_effects (effects w ++ l) w.

(** The replies sent and the fetches made along a trace, in order. *)
Fixpoint replies (l : list Effect) : list Text :=
  match l with
  | [] => []
  | EReply msg :: l' => msg :: replies l'
  | _ :: l' => replies l'
  end.

Fixpoint fetches (l : list Effect) : list (string * Z) :=
  match l with
  | [] => []
  | EGetEvents calendarId asOf :: l' => (calendarId, asOf) :: fetches l'
  | _ :: l' => fetches l'
  end.

(** The error reply of [handleEvt]. *)
Definition fetchErrorReply (err : error) : Text :=
  Sprintf "Error while getting calendar data: %s" [AText err].

Section Reading.
Context `{Collaborators}.

(** The event test of the loop, without the autoreply flag. *)
Definition isActive (now : Z) (e : CalEvent.t) : bool :=
  Before (CalEvent.Start e) now && After (CalEvent.End_ e) now.

(** The message the loop sends for an event. *)
Definition replyText (e : CalEvent.t) : Text :=
  if String.eqb (CalEvent.Description e) emptyString
  then Sprintf DefaultMsg [AStr (CalEvent.Name e)]
  else Lit (CalEvent.Description e).

(** The world after the reply and the two spam keys have been written. *)
Definition notified (uk rk : string) (now : Z) (msg : Text) (w : World) : World :=
  mkWorld (configCache w)
    (<[rk := KVEntry.mk (TimeString now) (clock w + Minute * 10)]>
       (<[uk := KVEntry.mk (TimeString now) (clock w + Hour * 2)]> (kv w)))
    (clock w)
    (effects w ++ [EReply msg; ESetKV uk (TimeString now) (Hour * 2);
                   ESetKV rk (TimeString now) (Minute * 10)]).

(** What [handleEvt] does once the events are at hand. *)
Definition answer (autoreply suppressed : bool) (now : Z) (uk rk : string)
    (calEvents : list CalEvent.t) (w : World) : Result Exit :=
  if suppressed then Done AlreadyReplied w
  else
    match (if autoreply then find (isActive now) calEvents else None) with
    | Some e => Done (Notified (replyText e)) (notified uk rk now (replyText e) w)
    | None => Done Silent w
    end.

(** What [loadBoolPref] makes of the preference [key] of a room: the
    parsed value, and false when it does not parse. *)
Definition boolPref (roomId key : string) : bool :=
  match ParseBool (Pref.Value (GetPref emptyString emptyString roomId
                                 "google_calendar" key "false")) with
  | Some val => val
  | None => false
  end.

(** The calendar-id and timezone preferences as [LoadFromPrefs] asks for
    them. *)
Definition cidPref (roomId : string) : Pref.t :=
  GetPref emptyString emptyString roomId "google_calendar" "calendar-id" emptyString.

Definition tzPref (roomId : string) : Pref.t :=
  GetPref emptyString emptyString roomId "google_calendar" "timezone" DefaultTz.

(** The config with the calendar id and the three flags taken from the
    preferences. *)
Definition withPrefs (cfg : Config.t) : Config.t :=
  let roomId := Config.RoomId cfg in
  Config.set_AnnounceEnd (boolPref roomId "announce-end")
    (Config.set_AnnounceStart (boolPref roomId "announce-start")
       (Config.set_Autoreply (boolPref roomId "autoreply")
          (Config.set_CalendarId (Pref.Value (cidPref roomId)) cfg))).

(** The config a reload at [now] leaves behind: untouched without a
    calendar-id preference; else with the calendar id and the flags of the
    preferences, and with the timezone and [configTs = now] as well when the
    timezone loads. *)
Definition reloaded (now : Z) (cfg : Config.t) : Config.t :=
  let roomId := Config.RoomId cfg in
  if Pref.Success (cidPref roomId) then
    match LoadLocation (Pref.Value (tzPref roomId)) with
    | inl tz => Config.set_configTs now (Config.set_Timezone tz (withPrefs cfg))
    | inr _ => withPrefs cfg
    end
  else cfg.

(** The config after the lazy check: reloaded when it is more than ten
    minutes old, else as it is. *)
Definition lazyConfig (now : Z) (cfg : Config.t) : Config.t :=
  if MinutesOver10 (Sub now (Config.configTs cfg)) then reloaded now cfg else cfg.

(** The reload the lazy check adds to the trace. *)
Definition lazyLoad (now : Z) (cfg : Config.t) : list Effect :=
  if MinutesOver10 (Sub now (Config.configTs cfg))
  then [ELoadFromPrefs (Config.RoomId cfg)] else [].

End Reading.

(** ** Sample collaborators and worlds *)

Definition standup : CalEvent.t :=
  CalEvent.mk "standup" "Daily standup" (100 * Hour) (101 * Hour).
Definition retro : CalEvent.t :=
  CalEvent.mk "retro" emptyString (100 * Hour) (102 * Hour).

(** Collaborators with the calendar id set or missing, the timezone known
    or not, and the calendar reachable or not. *)
Definition halWith (prefsOk tzOk calOk : bool) : Collaborators := {|
  getEvents := fun calendarId _ =>
    if calOk then inl [standup; retro] else inr (Lit "calendar unreachable");
  GetPref := fun _ _ _ _ key def =>
    if String.eqb key "calendar-id" then
      if prefsOk then Pref.mk "cal-1" true (Lit "ok")
      else Pref.mk def false (Lit "no such preference")
    else if String.eqb key "autoreply" then Pref.mk "true" true (Lit "ok")
    else Pref.mk def false (Lit "no such preference");
  LoadLocation := fun name =>
    if tzOk then inl name else inr (Lit "unknown time zone");
  ParseDuration := fun str =>
    if String.eqb str "4h" then inl (4 * Hour) else inr (Lit "invalid duration");
  TimeString := fun _ => "0001-01-05 04:30:00 +0000 UTC";
  TrimSpace := fun str => str;
  BodyAsArgv := fun body =>
    if String.eqb body "!gcal silence 4h" then ["!gcal"; "silence"; "4h"]
    else if String.eqb body "!gcal status" then ["!gcal"; "status"]
    else if String.eqb body "!gcal expire" then ["!gcal"; "expire"]
    else if String.eqb body "!gcal reload" then ["!gcal"; "reload"]
    else [body]
|}.

(** Half past the hundredth hour, nothing registered, nothing stored. *)
Definition boot : World := mkWorld ∅ ∅ (100 * Hour + 30 * Minute) [].

(** The room "ops" attached, its caches never filled. *)
Definition attached : World := world_of (initData "ops" boot).

(** A config with autoreply on and both caches filled at the instant of
    [boot]. *)
Definition warmConfig (roomId : string) : Config.t :=
  Config.mk roomId "cal-1" DefaultTz true false false [standup; retro]
    zeroTime (100 * Hour + 30 * Minute) (100 * Hour + 30 * Minute).

(** The room "ops" with both caches filled at the current instant. *)
Definition warm : World := put "ops" (warmConfig "ops") boot.

(** Two rooms, "a" and "a-x", both with their caches filled. *)
Definition twoRooms : World := put "a-x" (warmConfig "a-x") (put "a" (warmConfig "a") boot).

Definition hello : Evt.t := Evt.mk true "hello" "ops" "alice".

(** The room "ops" attached and silenced for four hours. *)
Definition hushed : World :=
  with_kv {[ "gcal-spam-ops" := KVEntry.mk "-" (104 * Hour + 30 * Minute) ]} attached.

(** * Properties *)

(** ** Running the monad *)

Lemma bind_Done {A B : Type} (m : M A) (k : A -> M B) w a w' :
  m w = Done a w' -> bind m k w = k a w'.
Proof. intros E. unfold bind. rewrite E. reflexivity. Qed.

Lemma bind_Panicked {A B : Type} (m : M A) (k : A -> M B) w p w' :
  m w = Panicked p w' -> bind m k w = Panicked p w'.
Proof. intros E. unfold bind. rewrite E. reflexivity. Qed.

Lemma lookup_put k cfg w : configCache (put k cfg w) !! k = Some cfg.
Proof. unfold put. simpl. apply lookup_insert_eq. Qed.

Lemma lookup_put_ne k k' cfg w :
  k <> k' -> configCache (put k cfg w) !! k' = configCache w !! k'.
Proof. intros Hne. unfold put. simpl. by apply lookup_insert_ne. Qed.

Lemma lookup_said k l w : configCache (said l w) !! k = configCache w !! k.
Proof. reflexivity. Qed.

Lemma put_put k c1 c2 w : put k c2 (put k c1 w) = put k c2 w.
Proof. unfold put, with_configCache. simpl. by rewrite insert_insert_eq. Qed.

Lemma put_same k cfg w : configCache w !! k = Some cfg -> put k cfg w = w.
Proof.
  intros E. destruct w as [cc s t l]. unfold put, with_configCache. simpl in *.
  by rewrite insert_id.
Qed.

Lemma said_said l1 l2 w : said l2 (said l1 w) = said (l1 ++ l2) w.
Proof. unfold said, with_effects. simpl. by rewrite app_assoc. Qed.

Lemma said_nil w : said [] w = w.
Proof. destruct w. unfold said, with_effects. simpl. by rewrite app_nil_r. Qed.

Lemma said_put k cfg l w : said l (put k cfg w) = put k cfg (said l w).
Proof. reflexivity. Qed.

Lemma deref_Some k cfg w :
  configCache w !! k = Some cfg -> deref (Some k) w = Done cfg w.
Proof. intros E. unfold deref. by rewrite E. Qed.

Lemma deref_None w : deref None w = Panicked NilDereference w.
Proof. reflexivity. Qed.

Lemma field_Some {A : Type} (f : Config.t -> A) k cfg w :
  configCache w !! k = Some cfg -> field (Some k) f w = Done (f cfg) w.
Proof. intros E. unfold field. by rewrite (bind_Done _ _ _ _ _ (deref_Some _ _ _ E)). Qed.

Lemma assign_Some set k cfg w :
  configCache w !! k = Some cfg -> assign (Some k) set w = Done tt (put k (set cfg) w).
Proof. intros E. unfold assign. by rewrite (bind_Done _ _ _ _ _ (deref_Some _ _ _ E)). Qed.

Lemma Lock_Some k cfg w :
  configCache w !! k = Some cfg -> Lock (Some k) w = Done tt w.
Proof. intros E. unfold Lock. by rewrite (bind_Done _ _ _ _ _ (deref_Some _ _ _ E)). Qed.

Lemma Unlock_Some k cfg w :
  configCache w !! k = Some cfg -> Unlock (Some k) w = Done tt w.
Proof. intros E. unfold Unlock. by rewrite (bind_Done _ _ _ _ _ (deref_Some _ _ _ E)). Qed.

Lemma emit_said e w : emit e w = Done tt (said [e] w).
Proof. reflexivity. Qed.

Lemma configCache_at_Some k cfg w :
  configCache w !! k = Some cfg -> configCache_at k w = Done (Some k) w.
Proof. intros E. unfold configCache_at. by rewrite E. Qed.

Lemma configCache_at_None k w :
  configCache w !! k = None -> configCache_at k w = Done None w.
Proof. intros E. unfold configCache_at. by rewrite E. Qed.

Create HintDb run.
#[local] Hint Resolve lookup_put deref_Some assign_Some Lock_Some Unlock_Some
  emit_said configCache_at_Some configCache_at_None : run.
#[local] Hint Extern 1 (field (Some _) _ _ = Done _ _) =>
  eapply field_Some : run.
#[local] Hint Extern 1 (configCache (said _ _) !! _ = _) =>
  rewrite lookup_said : run.
#[local] Hint Extern 1 (Now _ = Done _ _) => reflexivity : run.
#[local] Hint Extern 1 (ret _ _ = Done _ _) => reflexivity : run.

(** One step of a run whose head is known to return. *)
Ltac run1 := erewrite bind_Done by solve [eauto with run nocore].
Ltac run := repeat run1.

(** Equality of two worlds written with [put] and [said]. *)
Ltac worlds :=
  unfold ret, said, put, with_effects, with_configCache; simpl;
  rewrite ?insert_insert_eq, <- ?app_assoc; simpl; reflexivity.

(** The trace of a world written with [put], [said] and [notified], and
    what [replies] and [fetches] read off a listed trace, without touching
    the maps. *)
Ltac traces :=
  cbn [effects notified said put with_effects with_configCache with_kv
       app replies fetches In];
  rewrite <- ?app_assoc;
  cbn [app replies fetches In].

Section PluginFacts.
Context `{Collaborators}.

Lemma loadBoolPref_Some k cfg key w :
  configCache w !! k = Some cfg ->
  exists b, loadBoolPref (Some k) key w = Done b w.
Proof.
  intros E. unfold loadBoolPref. run.
  destruct (ParseBool _); eauto.
Qed.

Ltac loadBool :=
  match goal with
  | |- context [bind (loadBoolPref (Some ?k) ?key) _ ?w] =>
      let b := fresh "b" in
      let Eb := fresh "Eb" in
      destruct (loadBoolPref_Some k _ key w ltac:(eauto with run)) as [b Eb];
      rewrite (bind_Done _ _ _ _ _ Eb); clear Eb
  end.

(** A reload touches only the object of its room, and of that object
    neither the cached events nor their timestamp; it stamps [configTs]
    when, and only when, it returns nil. *)
Lemma LoadFromPrefs_Some k cfg w :
  configCache w !! k = Some cfg ->
  exists r cfg',
    LoadFromPrefs (Some k) w
      = Done r (put k cfg' (said [ELoadFromPrefs (Config.RoomId cfg)] w))
    /\ Config.CalEvents cfg' = Config.CalEvents cfg
    /\ Config.calTs cfg' = Config.calTs cfg
    /\ Config.RoomId cfg' = Config.RoomId cfg
    /\ (r = None -> Config.configTs cfg' = clock w)
    /\ (r <> None -> Config.configTs cfg' = Config.configTs cfg)
    /\ (Pref.Success (GetPref emptyString emptyString (Config.RoomId cfg)
                        "google_calendar" "calendar-id" emptyString) = false ->
        r <> None /\ cfg' = cfg).
Proof.
  intros E. unfold LoadFromPrefs. run.
  destruct (Pref.Success _) eqn:ES.
  - run1. do 3 (loadBool; run1).
    destruct (LoadLocation _) as [tz|err].
    + run. unfold ret. rewrite !put_put.
      eexists _, _. split; [reflexivity|].
      simpl. repeat split; try done.
    + run. unfold ret. rewrite !put_put.
      eexists _, _. split; [reflexivity|].
      simpl. repeat split; try done.
  - run. unfold ret. eexists _, cfg. split.
    + rewrite put_same; [reflexivity|]. by rewrite lookup_said.
    + repeat split; try done.
Qed.

Lemma getCachedConfig_Some k cfg now w :
  configCache w !! k = Some cfg ->
  getCachedConfig k now w
    = Done (Some k)
        (if MinutesOver10 (Sub now (Config.configTs cfg))
         then world_of (LoadFromPrefs (Some k) w) else w).
Proof.
  intros E. unfold getCachedConfig. run.
  destruct (MinutesOver10 _).
  - destruct (LoadFromPrefs_Some k cfg w E) as (r & cfg' & EL & _).
    rewrite EL. simpl. unfold bind at 1. unfold bind at 1. rewrite EL.
    reflexivity.
  - reflexivity.
Qed.

Lemma getCachedConfig_None k now w :
  configCache w !! k = None ->
  getCachedConfig k now w = Panicked NilDereference w.
Proof. intros E. unfold getCachedConfig. run. reflexivity. Qed.

Lemma getCachedCalEvents_Some k cfg now w :
  configCache w !! k = Some cfg ->
  getCachedCalEvents (Some k) now w
    = if HoursOver1_1 (Sub now (Config.calTs cfg)) then
        match getEvents (Config.CalendarId cfg) now with
        | inr err =>
            Done ([], Some err) (said [EGetEvents (Config.CalendarId cfg) now] w)
        | inl evts =>
            Done (evts, None)
              (put k (Config.set_CalEvents evts (Config.set_calTs now cfg))
                 (said [EGetEvents (Config.CalendarId cfg) now] w))
        end
      else Done (Config.CalEvents cfg, None) w.
Proof.
  intros E. unfold getCachedCalEvents. run.
  destruct (HoursOver1_1 _).
  - run. destruct (getEvents _ _) as [evts|err].
    + run. unfold ret. by rewrite !put_put.
    + reflexivity.
  - run. reflexivity.
Qed.

Lemma updateCachedCalEvents_Some k cfg w :
  configCache w !! k = Some cfg ->
  exists r cfg',
    LoadFromPrefs (Some k) w
      = Done r (put k cfg' (said [ELoadFromPrefs (Config.RoomId cfg)] w))
    /\ Config.CalEvents cfg' = Config.CalEvents cfg
    /\ Config.calTs cfg' = Config.calTs cfg
    /\ updateCachedCalEvents k w
       = Done tt
           (put k
              match getEvents (Config.CalendarId cfg') (clock w) with
              | inr _ => cfg'
              | inl evts => Config.set_CalEvents evts (Config.set_calTs (clock w) cfg')
              end
              (said [ELoadFromPrefs (Config.RoomId cfg);
                     EGetEvents (Config.CalendarId cfg') (clock w)] w)).
Proof.
  intros E.
  destruct (LoadFromPrefs_Some k cfg w E) as (r & cfg' & EL & Hev & Hts & _).
  exists r, cfg'. repeat split; try done.
  unfold updateCachedCalEvents. run.
  destruct (getEvents _ _) as [evts|err].
  - run. erewrite Unlock_Some by eauto with run nocore. worlds.
  - unfold ret. worlds.
Qed.

Lemma updateCachedCalEvents_None k w :
  configCache w !! k = None ->
  updateCachedCalEvents k w = Panicked NilDereference w.
Proof. intros E. unfold updateCachedCalEvents. run. reflexivity. Qed.

(** [getCachedConfig] in a registered room: the room's object becomes
    [cfg1], and the trace grows by the reload when the config was stale. *)
Lemma getCachedConfig_run k cfg now w :
  configCache w !! k = Some cfg ->
  let stale := MinutesOver10 (Sub now (Config.configTs cfg)) in
  let loads := if stale then [ELoadFromPrefs (Config.RoomId cfg)] else [] in
  exists cfg1,
    (if stale then exists r, LoadFromPrefs (Some k) w
                              = Done r (put k cfg1 (said loads w))
     else cfg1 = cfg)
    /\ Config.CalEvents cfg1 = Config.CalEvents cfg
    /\ Config.calTs cfg1 = Config.calTs cfg
    /\ Config.RoomId cfg1 = Config.RoomId cfg
    /\ getCachedConfig k now w = Done (Some k) (put k cfg1 (said loads w)).
Proof.
  intros E stale loads.
  rewrite (getCachedConfig_Some k cfg now w E).
  subst loads. fold stale. destruct stale.
  - destruct (LoadFromPrefs_Some k cfg w E) as (r & cfg' & EL & ? & ? & ? & _).
    exists cfg'. rewrite EL. simpl. eauto 7.
  - exists cfg. rewrite said_nil, (put_same k cfg w E). eauto 6.
Qed.

Lemma expireCaches_Some k cfg w :
  configCache w !! k = Some cfg ->
  expireCaches (Some k) w
    = Done tt (put k (Config.set_configTs zeroTime (Config.set_calTs zeroTime cfg)) w).
Proof. intros E. unfold expireCaches. run. erewrite assign_Some by eauto with run nocore. worlds. Qed.

Lemma autoreplyLoop_Some k cfg now uk rk calEvents w :
  configCache w !! k = Some cfg ->
  autoreplyLoop (Some k) now uk rk calEvents w
    = answer (Config.Autoreply cfg) false now uk rk calEvents w.
Proof.
  intros E. unfold answer.
  induction calEvents as [|e rest IH]; simpl.
  - by destruct (Config.Autoreply cfg).
  - run. fold (isActive now e). rewrite <- andb_assoc. fold (isActive now e).
    destruct (Config.Autoreply cfg); simpl.
    + destruct (isActive now e); [|exact IH].
      fold (replyText e). unfold Reply. run.
      unfold bind, SetKV, ret, notified, said, with_effects, with_kv. simpl.
      by rewrite <- !app_assoc.
    + exact IH.
Qed.

(** The closed form of a run of [handleEvt] on a chat message that is not
    a command, in a registered room: the config after the lazy reload is
    [cfg1], and the rest is decided by the age of the event cache, the
    fetch, the spam keys as read on entry and the first active event. *)
Lemma handleEvt_chat evt cfg w :
  Evt.IsChat evt = true ->
  Evt.Body evt <> emptyString ->
  HasPrefix (TrimSpace (Evt.Body evt)) "!" = false ->
  configCache w !! Evt.RoomId evt = Some cfg ->
  let room := Evt.RoomId evt in
  let now := clock w in
  let uk := getUserSpamKey room (Evt.UserId evt) in
  let rk := getRoomSpamKey room in
  let suppressed :=
    spamKeySet (liveValue (kv w) now uk) (liveValue (kv w) now rk) in
  let stale := MinutesOver10 (Sub now (Config.configTs cfg)) in
  let loads := if stale then [ELoadFromPrefs (Config.RoomId cfg)] else [] in
  exists cfg1,
    (if stale then exists r, LoadFromPrefs (Some room) w
                              = Done r (put room cfg1 (said loads w))
     else cfg1 = cfg)
    /\ Config.CalEvents cfg1 = Config.CalEvents cfg
    /\ Config.calTs cfg1 = Config.calTs cfg
    /\ handleEvt evt w
       = let w1 := put room cfg1 (said loads w) in
         if HoursOver1_1 (Sub now (Config.calTs cfg)) then
           let fetch := EGetEvents (Config.CalendarId cfg1) now in
           match getEvents (Config.CalendarId cfg1) now with
           | inr err =>
               Done (FetchFailed err)
                 (said [fetch;
                        EReply (Sprintf "Error while getting calendar data: %s"
                                  [AText err])] w1)
           | inl evts =>
               answer (Config.Autoreply cfg1) suppressed now uk rk evts
                 (put room (Config.set_CalEvents evts (Config.set_calTs now cfg1))
                    (said [fetch] w1))
           end
         else
           answer (Config.Autoreply cfg1) suppressed now uk rk
             (Config.CalEvents cfg) w1.
Proof.
  intros Hchat Hbody Hcmd E room now uk rk suppressed stale loads.
  destruct (getCachedConfig_run room cfg now w E)
    as (cfg1 & Hload & Hev & Hts & _ & Hcfg).
  fold stale loads in Hload, Hcfg.
  exists cfg1. repeat split; try done.
  unfold handleEvt. rewrite Hchat. simpl.
  destruct (String.eqb_spec (Evt.Body evt) emptyString) as [|_]; [done|].
  rewrite Hcmd. fold room.
  unfold bind at 1. unfold Now at 1. fold now.
  unfold bind at 1. unfold GetKV at 1. fold now uk.
  unfold bind at 1. unfold GetKV at 1. fold now rk.
  rewrite (bind_Done _ _ _ _ _ Hcfg).
  unfold bind at 1.
  rewrite (getCachedCalEvents_Some room cfg1 now _ (lookup_put _ _ _)).
  rewrite Hts. cbv zeta.
  destruct (HoursOver1_1 _).
  - destruct (getEvents _ _) as [evts|err]; simpl.
    + fold suppressed. unfold answer. destruct suppressed; [reflexivity|].
      by rewrite (autoreplyLoop_Some room _ now uk rk evts _ (lookup_put _ _ _)).
    + unfold Replyf. run. unfold ret. by rewrite said_said.
  - simpl. fold suppressed. unfold answer. destruct suppressed; [reflexivity|].
    rewrite (autoreplyLoop_Some room _ now uk rk _ _ (lookup_put _ _ _)).
    by rewrite Hev.
Qed.

Lemma loadBoolPref_exact k cfg key w :
  configCache w !! k = Some cfg ->
  loadBoolPref (Some k) key w = Done (boolPref (Config.RoomId cfg) key) w.
Proof.
  intros E. unfold loadBoolPref, boolPref. run.
  by destruct (ParseBool _).
Qed.

(** The reload in closed form: what it returns and the config it leaves. *)
Lemma LoadFromPrefs_exact k cfg w :
  configCache w !! k = Some cfg ->
  let roomId := Config.RoomId cfg in
  exists r,
    LoadFromPrefs (Some k) w
      = Done r (put k (reloaded (clock w) cfg) (said [ELoadFromPrefs roomId] w))
    /\ (r = None <->
        Pref.Success (cidPref roomId) = true
        /\ exists tz, LoadLocation (Pref.Value (tzPref roomId)) = inl tz).
Proof.
  intros E roomId. unfold LoadFromPrefs, reloaded. run.
  fold roomId. fold (cidPref roomId). fold (tzPref roomId).
  destruct (Pref.Success (cidPref roomId)).
  - run1.
    do 3 (erewrite bind_Done by (eapply loadBoolPref_exact, lookup_put); run1).
    destruct (LoadLocation _) as [tz|err]; run; unfold ret; rewrite !put_put;
      eexists; (split; [reflexivity|]).
    + split; eauto.
    + split; [discriminate|]. by intros (_ & tz & ?).
  - run. unfold ret. eexists. split.
    + rewrite put_same; [reflexivity|]. by rewrite lookup_said.
    + split; [discriminate|]. by intros (? & _).
Qed.

(** [handleEvt_chat] with the config after the lazy reload written out. *)
Lemma handleEvt_closed evt cfg w :
  Evt.IsChat evt = true ->
  Evt.Body evt <> emptyString ->
  HasPrefix (TrimSpace (Evt.Body evt)) "!" = false ->
  configCache w !! Evt.RoomId evt = Some cfg ->
  let room := Evt.RoomId evt in
  let now := clock w in
  let uk := getUserSpamKey room (Evt.UserId evt) in
  let rk := getRoomSpamKey room in
  let suppressed :=
    spamKeySet (liveValue (kv w) now uk) (liveValue (kv w) now rk) in
  let cfg1 := lazyConfig now cfg in
  let w1 := put room cfg1 (said (lazyLoad now cfg) w) in
  handleEvt evt w
  = if HoursOver1_1 (Sub now (Config.calTs cfg)) then
      let fetch := EGetEvents (Config.CalendarId cfg1) now in
      match getEvents (Config.CalendarId cfg1) now with
      | inr err =>
          Done (FetchFailed err) (said [fetch; EReply (fetchErrorReply err)] w1)
      | inl evts =>
          answer (Config.Autoreply cfg1) suppressed now uk rk evts
            (put room (Config.set_CalEvents evts (Config.set_calTs now cfg1))
               (said [fetch] w1))
      end
    else
      answer (Config.Autoreply cfg1) suppressed now uk rk (Config.CalEvents cfg) w1.
Proof.
  intros Hchat Hbody Hcmd E room now uk rk suppressed cfg1 w1.
  destruct (handleEvt_chat evt cfg w Hchat Hbody Hcmd E)
    as (cfg' & Hload & _ & _ & Hrun).
  cbv zeta in Hrun, Hload. fold room now uk rk suppressed in Hrun, Hload.
  assert (Hcfg : cfg' = cfg1).
  { subst cfg1. unfold lazyConfig. destruct (MinutesOver10 _); [|exact Hload].
    destruct Hload as [r Hload].
    destruct (LoadFromPrefs_exact room cfg w E) as (r' & Hexact & _).
    fold now in Hexact. rewrite Hexact in Hload.
    injection Hload as _ Hw.
    apply (f_equal (fun m : gmap string Config.t => m !! room)) in Hw.
    rewrite !lookup_insert_eq in Hw. by injection Hw. }
  subst cfg'. exact Hrun.
Qed.

End PluginFacts.


(** ** Thresholds *)

Lemma MinutesOver10_Sub t u :
  MinutesOver10 (Sub t u) = true <-> 10 * Minute < t - u.
Proof.
  unfold MinutesOver10, Sub, minDuration, maxDuration, Minute, Second, Nanosecond.
  rewrite Z.ltb_lt. lia.
Qed.

Lemma HoursOver1_1_Sub t u :
  HoursOver1_1 (Sub t u) = true <-> 66 * Minute < t - u.
Proof.
  unfold HoursOver1_1, Sub, minDuration, maxDuration, Minute, Second, Nanosecond.
  rewrite Z.ltb_lt. lia.
Qed.

(** ** Spam keys *)

Lemma append_cancel_l (p a b : string) : p +:+ a = p +:+ b -> a = b.
Proof. induction p as [|c p IH]; simpl; intros E; [done|]. injection E. auto. Qed.

Lemma append_nonempty_r (a b : string) : b <> EmptyString -> a +:+ b <> a.
Proof.
  intros Hb. induction a as [|c a IH]; simpl; intros E; [done|].
  injection E. exact IH.
Qed.

(** The two keys of one message never coincide. *)
Lemma spam_keys_differ x y : getUserSpamKey x y <> getRoomSpamKey x.
Proof.
  unfold getUserSpamKey, getRoomSpamKey. intros E.
  apply append_cancel_l in E. by apply append_nonempty_r in E.
Qed.

(** ** The event cache *)

Section Refresh.
Context `{Collaborators}.

(** C4. Every event refresh is all or nothing.  The scheduled tick
    [updateCachedCalEvents] and the lazy refetch of [getCachedCalEvents] make
    one fetch; when it succeeds the room's cached list is the fetched list
    and [calTs] is the [now] of the call, both together; when it fails the
    cached list and [calTs] are both exactly what they were.  A failed
    refresh neither empties the list nor moves the timestamp. *)
Theorem C4_refresh_all_or_nothing (roomId : string) (cfg : Config.t) (now : Z) (w : World) :
  configCache w !! roomId = Some cfg ->
  (exists w' cfg' calendarId,
      updateCachedCalEvents roomId w = Done tt w'
      /\ effects w' = (effects w ++ [ELoadFromPrefs (Config.RoomId cfg);
                                     EGetEvents calendarId (clock w)])%list
      /\ configCache w' !! roomId = Some cfg'
      /\ match getEvents calendarId (clock w) with
         | inl evts => Config.CalEvents cfg' = evts /\ Config.calTs cfg' = clock w
         | inr _ => Config.CalEvents cfg' = Config.CalEvents cfg
                    /\ Config.calTs cfg' = Config.calTs cfg
         end)
  /\ (exists r w' cfg',
      getCachedCalEvents (Some roomId) now w = Done r w'
      /\ configCache w' !! roomId = Some cfg'
      /\ if HoursOver1_1 (Sub now (Config.calTs cfg)) then
           effects w' = (effects w ++ [EGetEvents (Config.CalendarId cfg) now])%list
           /\ match getEvents (Config.CalendarId cfg) now with
              | inl evts => r = (evts, None)
                            /\ Config.CalEvents cfg' = evts /\ Config.calTs cfg' = now
              | inr err => r = ([], Some err)
                           /\ Config.CalEvents cfg' = Config.CalEvents cfg
                           /\ Config.calTs cfg' = Config.calTs cfg
              end
         else r = (Config.CalEvents cfg, None) /\ w' = w).
Proof.
  intros E. split.
  - destruct (updateCachedCalEvents_Some roomId cfg w E)
      as (r & cfg1 & _ & Hev & Hts & Hrun).
    eexists _, _, (Config.CalendarId cfg1). split; [exact Hrun|].
    split; [reflexivity|]. split; [apply lookup_put|].
    destruct (getEvents _ _); simpl; auto.
  - rewrite (getCachedCalEvents_Some roomId cfg now w E).
    destruct (HoursOver1_1 _).
    + destruct (getEvents _ _) as [evts|err].
      * eexists _, _, _. split; [reflexivity|]. split; [apply lookup_put|].
        simpl. auto.
      * eexists _, _, cfg. split; [reflexivity|]. split; [by rewrite lookup_said|].
        auto.
    + eexists _, _, cfg. split; [reflexivity|]. auto.
Qed.

End Refresh.

Lemma C4_witness :
  configCache warm !! "ops" = Some (warmConfig "ops")
  /\ exists w' cfg',
      updateCachedCalEvents (H := halWith true true false) "ops" warm = Done tt w'
      /\ configCache w' !! "ops" = Some cfg'.
Proof.
  assert (E : configCache warm !! "ops" = Some (warmConfig "ops"))
    by (vm_compute; reflexivity).
  split; [exact E|].
  destruct (C4_refresh_all_or_nothing (H := halWith true true false)
              "ops" _ (clock warm) warm E)
    as [(w' & cfg' & calendarId & Hrun & _ & Hcfg & _) _].
  exists w', cfg'. split; [exact Hrun | exact Hcfg].
Defined.

(** C10. The spam keys are plain concatenations and so not injective.  The
    call site passes the room id first and the user id second, so a message
    of user [u] in room [r] uses the user key "gcal-spam-r-u" and the room
    key "gcal-spam-r".  Two different (user, room) pairs share a user key,
    and the user key of one pair is the room key of another room.  So the
    reply to user "x" in room "a" silences room "a-x": a message of another
    user there, which would have been answered, ends at the already-replied
    check. *)
Theorem C10_spam_keys_collide :
  (forall userId roomId,
      getUserSpamKey roomId userId = "gcal-spam-" +:+ roomId +:+ "-" +:+ userId
      /\ getRoomSpamKey roomId = "gcal-spam-" +:+ roomId)
  /\ (exists u1 r1 u2 r2,
         (u1, r1) <> (u2, r2)
         /\ getUserSpamKey r1 u1 = getUserSpamKey r2 u2)
  /\ (exists u r r',
         r' <> r /\ getUserSpamKey r u = getRoomSpamKey r')
  /\ (exists w1 w2,
         handleEvt (H := halWith true true true) (Evt.mk true "hi" "a-x" "bob") twoRooms
           = Done (Notified (Lit "Daily standup")) w2
         /\ handleEvt (H := halWith true true true) (Evt.mk true "hi" "a" "x") twoRooms
            = Done (Notified (Lit "Daily standup")) w1
         /\ handleEvt (H := halWith true true true) (Evt.mk true "hi" "a-x" "bob") w1
            = Done AlreadyReplied w1).
Proof.
  split; [by intros|]. split; [|split].
  - exists "b-c", "a", "c", "a-b". split; [discriminate|reflexivity].
  - exists "x", "a", "a-x". split; [discriminate|reflexivity].
  - eexists _, _. split; [|split]; vm_compute; reflexivity.
Qed.

(** ** The chat handler on a plain message *)

Section Evaluate.
Context `{Collaborators}.

(** A chat message with a body that is not a command, in a room that has
    its registry entry. *)
Variables (evt : Evt.t) (cfg : Config.t) (w : World).
Hypothesis Hchat : Evt.IsChat evt = true.
Hypothesis Hbody : Evt.Body evt <> emptyString.
Hypothesis Hplain : HasPrefix (TrimSpace (Evt.Body evt)) "!" = false.
Hypothesis Hroom : configCache w !! Evt.RoomId evt = Some cfg.

(** C1, as amended.  [handleEvt] reads the two spam keys first but acts on
    them only after the lazy config reload and the lazy event fetch.  When
    the keys show suppression no notification is sent and no spam key is
    written: the KV store is left as it was.  A stale config is reloaded and
    a stale event cache is fetched all the same, and the room's config is
    left as the reload and the fetch make it.  The run ends at the
    already-replied check without any reply, except that a failed lazy fetch
    ends it earlier with the fetch error as its only reply.  The calls of
    the run are the reload, if the config was stale, then the fetch, if the
    events were stale, then the error reply, if the fetch failed, and
    nothing else. *)
Theorem C1_suppressed_after_lazy_refresh :
  let now := clock w in
  let room := Evt.RoomId evt in
  let uk := getUserSpamKey room (Evt.UserId evt) in
  let rk := getRoomSpamKey room in
  let cfg1 := lazyConfig now cfg in
  let fetch := EGetEvents (Config.CalendarId cfg1) now in
  spamKeySet (liveValue (kv w) now uk) (liveValue (kv w) now rk) = true ->
  exists x w' l,
    handleEvt evt w = Done x w'
    /\ effects w' = (effects w ++ l)%list
    /\ kv w' = kv w
    /\ (forall key value ttl, ~ In (ESetKV key value ttl) l)
    /\ (forall e, x <> Notified (replyText e))
    /\ (10 * Minute < now - Config.configTs cfg ->
        In (ELoadFromPrefs (Config.RoomId cfg)) l)
    /\ (66 * Minute < now - Config.calTs cfg ->
        In fetch l
        /\ match getEvents (Config.CalendarId cfg1) now with
           | inr err =>
               x = FetchFailed err
               /\ l = (lazyLoad now cfg ++ [fetch; EReply (fetchErrorReply err)])%list
               /\ replies l = [fetchErrorReply err]
               /\ configCache w' = <[room := cfg1]> (configCache w)
           | inl evts =>
               x = AlreadyReplied
               /\ l = (lazyLoad now cfg ++ [fetch])%list
               /\ replies l = []
               /\ configCache w'
                  = <[room := Config.set_CalEvents evts (Config.set_calTs now cfg1)]>
                      (configCache w)
           end)
    /\ (~ 66 * Minute < now - Config.calTs cfg ->
        x = AlreadyReplied
        /\ l = lazyLoad now cfg
        /\ replies l = []
        /\ configCache w' = <[room := cfg1]> (configCache w)).
Proof.
  intros now room uk rk cfg1 fetch Hsup.
  pose proof (handleEvt_closed evt cfg w Hchat Hbody Hplain Hroom) as Hrun.
  cbv zeta in Hrun. fold now room uk rk cfg1 fetch in Hrun.
  rewrite Hsup in Hrun. unfold answer in Hrun.
  pose proof (MinutesOver10_Sub now (Config.configTs cfg)) as Hm.
  pose proof (HoursOver1_1_Sub now (Config.calTs cfg)) as Hh.
  assert (Hkeys : forall key value ttl, ~ In (ESetKV key value ttl) (lazyLoad now cfg)).
  { intros key value ttl. unfold lazyLoad.
    destruct (MinutesOver10 _); cbn [In]; intuition discriminate. }
  assert (Hquiet : forall tail, replies (lazyLoad now cfg ++ tail) = replies tail).
  { intros tail. unfold lazyLoad. by destruct (MinutesOver10 _). }
  assert (Hload : 10 * Minute < now - Config.configTs cfg ->
                  In (ELoadFromPrefs (Config.RoomId cfg)) (lazyLoad now cfg)).
  { intros Hlt. apply Hm in Hlt. unfold lazyLoad. rewrite Hlt. by left. }
  destruct (HoursOver1_1 _) eqn:EH.
  - destruct (getEvents (Config.CalendarId cfg1) now) as [evts|err] eqn:EF.
    + eexists AlreadyReplied, _, (lazyLoad now cfg ++ [fetch])%list.
      split; [exact Hrun|]. split; [traces; reflexivity|]. split; [reflexivity|].
      split.
      { intros key value ttl Hin. apply in_app_or in Hin as [Hin|Hin];
          [by apply Hkeys in Hin|]. cbn [In] in Hin. intuition discriminate. }
      split; [discriminate|].
      split; [intros Hlt; apply in_or_app; left; by apply Hload|].
      split; [|intros Hn; exfalso; apply Hn, Hh; reflexivity].
      intros _. split; [apply in_or_app; right; by left|].
      split; [reflexivity|]. split; [reflexivity|]. split; [apply Hquiet|].
      cbn [configCache put said with_effects with_configCache].
      apply insert_insert_eq.
    + eexists (FetchFailed err), _,
        (lazyLoad now cfg ++ [fetch; EReply (fetchErrorReply err)])%list.
      split; [exact Hrun|]. split; [traces; reflexivity|]. split; [reflexivity|].
      split.
      { intros key value ttl Hin. apply in_app_or in Hin as [Hin|Hin];
          [by apply Hkeys in Hin|]. cbn [In] in Hin. intuition discriminate. }
      split; [discriminate|].
      split; [intros Hlt; apply in_or_app; left; by apply Hload|].
      split; [|intros Hn; exfalso; apply Hn, Hh; reflexivity].
      intros _. split; [apply in_or_app; right; by left|].
      split; [reflexivity|]. split; [reflexivity|]. split; [apply Hquiet|].
      reflexivity.
  - eexists AlreadyReplied, _, (lazyLoad now cfg).
    split; [exact Hrun|]. split; [reflexivity|]. split; [reflexivity|].
    split; [exact Hkeys|]. split; [discriminate|]. split; [exact Hload|].
    split; [intros Hlt; apply Hh in Hlt; discriminate|].
    intros _. split; [reflexivity|]. split; [reflexivity|].
    split; [rewrite <- (app_nil_r (lazyLoad now cfg)); apply Hquiet|].
    reflexivity.
Qed.


(** C5.  On a room whose event cache is more than 66 minutes old,
    [handleEvt] makes exactly one [getEvents] call, and makes it before any
    reply; nothing but the config reload comes before it.  When that fetch
    fails the run ends with the fetch error as its reply: the cached list is
    left as it was and is not scanned. *)
Theorem C5_stale_events_one_fetch :
  let now := clock w in
  let room := Evt.RoomId evt in
  66 * Minute < now - Config.calTs cfg ->
  exists x w' pre post calendarId,
    handleEvt evt w = Done x w'
    /\ effects w' = (effects w ++ pre ++ EGetEvents calendarId now :: post)%list
    /\ fetches (pre ++ EGetEvents calendarId now :: post) = [(calendarId, now)]
    /\ replies pre = []
    /\ (forall e, In e pre -> e = ELoadFromPrefs (Config.RoomId cfg))
    /\ (forall err, getEvents calendarId now = inr err ->
        x = FetchFailed err
        /\ post = [EReply (fetchErrorReply err)]
        /\ exists cfg', configCache w' !! room = Some cfg'
                        /\ Config.CalEvents cfg' = Config.CalEvents cfg
                        /\ Config.calTs cfg' = Config.calTs cfg).
Proof.
  intros now room Hold.
  apply HoursOver1_1_Sub in Hold.
  destruct (handleEvt_chat evt cfg w Hchat Hbody Hplain Hroom)
    as (cfg1 & _ & Hev & Hts & Hrun).
  cbv zeta in Hrun. fold now room in Hrun. rewrite Hold in Hrun.
  rewrite Hrun. clear Hrun. unfold answer, fetchErrorReply.
  destruct (getEvents (Config.CalendarId cfg1) now) as [evts|err] eqn:EF;
    [destruct (spamKeySet _ _);
     [|destruct (Config.Autoreply cfg1); [destruct (find _ _)|]]|];
    (destruct (MinutesOver10 _);
     [eexists _, _, [ELoadFromPrefs (Config.RoomId cfg)], _, (Config.CalendarId cfg1)
     |eexists _, _, [], _, (Config.CalendarId cfg1)]);
    (split; [reflexivity|]);
    (split; [traces; reflexivity|]);
    traces;
    (split; [reflexivity|]); (split; [reflexivity|]);
    (split; [intros ?; intuition|]);
    intros err' Herr; rewrite EF in Herr; try discriminate.
  all: injection Herr as <-; split; [reflexivity|]; split; [reflexivity|].
  all: exists cfg1; split; [|auto].
  all: rewrite lookup_said; apply lookup_put.
Qed.

Lemma isActive_strict now e :
  isActive now e = true <-> CalEvent.Start e < now < CalEvent.End_ e.
Proof.
  unfold isActive, Before, After. rewrite andb_true_iff, !Z.ltb_lt. reflexivity.
Qed.

Lemma find_first_active now before e behind :
  Forall (fun e' => ~ CalEvent.Start e' < now < CalEvent.End_ e') before ->
  CalEvent.Start e < now < CalEvent.End_ e ->
  find (isActive now) (before ++ e :: behind) = Some e.
Proof.
  intros Hbefore He. induction Hbefore as [|e' before Hno _ IH]; cbn [app find].
  - apply isActive_strict in He. by rewrite He.
  - destruct (isActive now e') eqn:Ea; [|exact IH].
    apply isActive_strict in Ea. contradiction.
Qed.

Lemma find_no_active now calEvents :
  Forall (fun e => ~ CalEvent.Start e < now < CalEvent.End_ e) calEvents ->
  find (isActive now) calEvents = None.
Proof.
  induction 1 as [|e l Hno _ IH]; [reflexivity|]. cbn [find].
  destruct (isActive now e) eqn:Ea; [|exact IH].
  apply isActive_strict in Ea. contradiction.
Qed.

(** C6.  With no spam key set, [handleEvt] scans the event list from the
    front: the room's cached list as it stood when that is at most 66
    minutes old, else the list [getEvents] has just returned.  An event
    counts when [Start < now < End], both strict, so an event that starts or
    ends at [now] does not.  With autoreply on, as the config says after the
    lazy reload, the run replies for the first such event in stored order,
    whatever comes behind it, and that is its only reply.  With autoreply
    off, or without such an event, also when the only candidates start or
    end at [now], the run sends nothing.  A fetch error is the outcome only
    when the list was stale and [getEvents] failed. *)
Theorem C6_first_active_event :
  let now := clock w in
  let room := Evt.RoomId evt in
  let uk := getUserSpamKey room (Evt.UserId evt) in
  let rk := getRoomSpamKey room in
  let cfg1 := lazyConfig now cfg in
  let scanned :=
    if HoursOver1_1 (Sub now (Config.calTs cfg))
    then getEvents (Config.CalendarId cfg1) now
    else inl (Config.CalEvents cfg) in
  spamKeySet (liveValue (kv w) now uk) (liveValue (kv w) now rk) = false ->
  (forall e, isActive now e = true <-> CalEvent.Start e < now < CalEvent.End_ e)
  /\ exists x w' l,
      handleEvt evt w = Done x w'
      /\ effects w' = (effects w ++ l)%list
      /\ match scanned with
         | inr err => x = FetchFailed err /\ replies l = [fetchErrorReply err]
         | inl calEvents =>
             (forall before e behind,
                 Config.Autoreply cfg1 = true ->
                 calEvents = (before ++ e :: behind)%list ->
                 Forall (fun e' => ~ CalEvent.Start e' < now < CalEvent.End_ e') before ->
                 CalEvent.Start e < now < CalEvent.End_ e ->
                 x = Notified (replyText e)
                 /\ replies l = [replyText e]
                 /\ last l = Some (ESetKV rk (TimeString now) (Minute * 10)))
             /\ (Config.Autoreply cfg1 = false
                 \/ Forall (fun e => ~ CalEvent.Start e < now < CalEvent.End_ e) calEvents ->
                 x = Silent /\ replies l = [] /\ kv w' = kv w)
         end.
Proof.
  intros now room uk rk cfg1 scanned Hfree. split; [apply isActive_strict|].
  pose proof (handleEvt_closed evt cfg w Hchat Hbody Hplain Hroom) as Hrun.
  cbv zeta in Hrun. fold now room uk rk cfg1 in Hrun.
  rewrite Hfree in Hrun. unfold answer in Hrun.
  assert (Hquiet : forall tail, replies (lazyLoad now cfg ++ tail) = replies tail).
  { intros tail. unfold lazyLoad. by destruct (MinutesOver10 _). }
  assert (Hscan : forall calEvents w1 pre,
             effects w1 = (effects w ++ lazyLoad now cfg ++ pre)%list ->
             replies pre = [] ->
             kv w1 = kv w ->
             handleEvt evt w
             = match (if Config.Autoreply cfg1
                      then find (isActive now) calEvents else None) with
               | Some e => Done (Notified (replyText e))
                             (notified uk rk now (replyText e) w1)
               | None => Done Silent w1
               end ->
             exists x w' l,
               handleEvt evt w = Done x w'
               /\ effects w' = (effects w ++ l)%list
               /\ (forall before e behind,
                     Config.Autoreply cfg1 = true ->
                     calEvents = (before ++ e :: behind)%list ->
                     Forall (fun e' => ~ CalEvent.Start e' < now < CalEvent.End_ e')
                       before ->
                     CalEvent.Start e < now < CalEvent.End_ e ->
                     x = Notified (replyText e)
                     /\ replies l = [replyText e]
                     /\ last l = Some (ESetKV rk (TimeString now) (Minute * 10)))
               /\ (Config.Autoreply cfg1 = false
                   \/ Forall (fun e => ~ CalEvent.Start e < now < CalEvent.End_ e)
                        calEvents ->
                   x = Silent /\ replies l = [] /\ kv w' = kv w)).
  { intros calEvents w1 pre Heff Hpre Hkv Heq.
    destruct (Config.Autoreply cfg1) eqn:Ea;
      [destruct (find (isActive now) calEvents) as [e0|] eqn:Ef|].
    - eexists (Notified (replyText e0)), _,
        (lazyLoad now cfg ++ pre
         ++ [EReply (replyText e0); ESetKV uk (TimeString now) (Hour * 2);
             ESetKV rk (TimeString now) (Minute * 10)])%list.
      split; [exact Heq|]. split.
      { cbn [effects notified]. rewrite Heff, <- !app_assoc. reflexivity. }
      split.
      + intros before e behind _ -> Hbefore He.
        rewrite (find_first_active now before e behind Hbefore He) in Ef.
        injection Ef as <-. split; [reflexivity|]. split.
        * rewrite Hquiet.
          assert (Happ : forall a b, replies (a ++ b) = (replies a ++ replies b)%list).
          { induction a as [|[] a IH]; intros b; cbn [app replies];
              rewrite ?IH; reflexivity. }
          rewrite Happ, Hpre. reflexivity.
        * rewrite !app_assoc.
          change [EReply (replyText e); ESetKV uk (TimeString now) (Hour * 2);
                  ESetKV rk (TimeString now) (Minute * 10)]
            with ([EReply (replyText e); ESetKV uk (TimeString now) (Hour * 2)]
                  ++ [ESetKV rk (TimeString now) (Minute * 10)])%list.
          rewrite app_assoc. apply last_snoc.
      + intros [Hoff|Hnone]; [discriminate|].
        rewrite (find_no_active now calEvents Hnone) in Ef. discriminate.
    - exists Silent, w1, (lazyLoad now cfg ++ pre)%list.
      split; [exact Heq|]. split; [exact Heff|]. split.
      + intros before e behind _ -> Hbefore He.
        rewrite (find_first_active now before e behind Hbefore He) in Ef.
        discriminate.
      + intros _. split; [reflexivity|]. split; [by rewrite Hquiet|exact Hkv].
    - exists Silent, w1, (lazyLoad now cfg ++ pre)%list.
      split; [exact Heq|]. split; [exact Heff|]. split.
      + intros before e behind Hon. discriminate.
      + intros _. split; [reflexivity|]. split; [by rewrite Hquiet|exact Hkv]. }
  subst scanned. destruct (HoursOver1_1 _).
  - destruct (getEvents (Config.CalendarId cfg1) now) as [evts|err].
    + eapply (Hscan evts _ [EGetEvents (Config.CalendarId cfg1) now]); cycle 3;
        [exact Hrun|traces; reflexivity|reflexivity|reflexivity].
    + eexists _, _, (lazyLoad now cfg ++ _)%list.
      split; [exact Hrun|]. split; [traces; reflexivity|].
      split; [reflexivity|]. by rewrite Hquiet.
  - eapply (Hscan (Config.CalEvents cfg) _ []); cycle 3;
      [exact Hrun|traces; by rewrite app_nil_r|reflexivity|reflexivity].
Qed.

(** Both spam keys as [handleEvt] leaves them after a reply. *)
Lemma handleEvt_notified msg w' :
  handleEvt evt w = Done (Notified msg) w' ->
  exists w2 l,
    w' = notified (getUserSpamKey (Evt.RoomId evt) (Evt.UserId evt))
           (getRoomSpamKey (Evt.RoomId evt)) (clock w) msg w2
    /\ kv w2 = kv w /\ clock w2 = clock w
    /\ effects w2 = (effects w ++ l)%list.
Proof.
  intros Hres.
  destruct (handleEvt_chat evt cfg w Hchat Hbody Hplain Hroom)
    as (cfg1 & _ & _ & _ & Hrun).
  cbv zeta in Hrun. rewrite Hrun in Hres. clear Hrun. unfold answer in Hres.
  repeat match type of Hres with
  | context [match getEvents ?c ?t with _ => _ end] => destruct (getEvents c t)
  | context [match find ?p ?l with _ => _ end] => destruct (find p l)
  | context [if ?b then _ else _] => destruct b
  end; try discriminate; injection Hres as <- <-;
  eexists _, _; (split; [reflexivity|]); (split; [reflexivity|]);
  (split; [reflexivity|]); traces; reflexivity.
Qed.

(** C8.  When [handleEvt] replies, it has written the user key with a TTL
    of two hours and the room key with a TTL of ten minutes, both with the
    printed [now] as value, right after the reply and as its last calls.
    That value is not empty, so both keys read back non-empty at once and
    the already-replied check of a following message of that user in that
    room holds. *)
Theorem C8_notified_writes_both_keys (msg : Text) (w' : World) :
  let now := clock w in
  let uk := getUserSpamKey (Evt.RoomId evt) (Evt.UserId evt) in
  let rk := getRoomSpamKey (Evt.RoomId evt) in
  TimeString now <> emptyString ->
  handleEvt evt w = Done (Notified msg) w' ->
  kv w' !! uk = Some (KVEntry.mk (TimeString now) (now + 2 * Hour))
  /\ kv w' !! rk = Some (KVEntry.mk (TimeString now) (now + 10 * Minute))
  /\ (forall key, key <> uk -> key <> rk -> kv w' !! key = kv w !! key)
  /\ (exists l, effects w'
                = (effects w ++ l ++ [EReply msg;
                                      ESetKV uk (TimeString now) (2 * Hour);
                                      ESetKV rk (TimeString now) (10 * Minute)])%list)
  /\ clock w' = now
  /\ liveValue (kv w') (clock w') uk <> emptyString
  /\ liveValue (kv w') (clock w') rk <> emptyString
  /\ spamKeySet (liveValue (kv w') (clock w') uk) (liveValue (kv w') (clock w') rk)
     = true.
Proof.
  intros now uk rk Hstr Hres.
  destruct (handleEvt_notified msg w' Hres) as (w2 & l & -> & Hkv & Hclock & Heff).
  fold now uk rk.
  assert (Hne : uk <> rk) by apply spam_keys_differ.
  assert (Hu : kv (notified uk rk now msg w2) !! uk
               = Some (KVEntry.mk (TimeString now) (now + 2 * Hour))).
  { cbn [kv notified]. rewrite lookup_insert_ne by congruence.
    rewrite lookup_insert_eq, Hclock, (Z.mul_comm Hour 2). reflexivity. }
  assert (Hr : kv (notified uk rk now msg w2) !! rk
               = Some (KVEntry.mk (TimeString now) (now + 10 * Minute))).
  { cbn [kv notified]. rewrite lookup_insert_eq, Hclock, (Z.mul_comm Minute 10).
    reflexivity. }
  assert (Hc : clock (notified uk rk now msg w2) = now) by exact Hclock.
  assert (Hlu : liveValue (kv (notified uk rk now msg w2)) now uk = TimeString now).
  { unfold liveValue. rewrite Hu. cbn [KVEntry.expires KVEntry.value].
    destruct (Z.ltb_spec now (now + 2 * Hour)) as [_|Hge]; [reflexivity|].
    unfold Hour, Minute, Second, Nanosecond in Hge. lia. }
  assert (Hlr : liveValue (kv (notified uk rk now msg w2)) now rk = TimeString now).
  { unfold liveValue. rewrite Hr. cbn [KVEntry.expires KVEntry.value].
    destruct (Z.ltb_spec now (now + 10 * Minute)) as [_|Hge]; [reflexivity|].
    unfold Minute, Second, Nanosecond in Hge. lia. }
  split; [exact Hu|]. split; [exact Hr|]. split.
  { intros key Hk1 Hk2. cbn [kv notified].
    rewrite !lookup_insert_ne by congruence. by rewrite Hkv. }
  split.
  { exists l. cbn [effects notified]. rewrite Heff, <- app_assoc.
    by rewrite (Z.mul_comm Hour 2), (Z.mul_comm Minute 10). }
  split; [exact Hc|]. rewrite Hc, Hlu, Hlr.
  split; [exact Hstr|]. split; [exact Hstr|].
  unfold spamKeySet. destruct (String.eqb_spec (TimeString now) emptyString); done.
Qed.

(** C9.  [expireCaches] sets [configTs] and [calTs] of the room's config to
    the zero instant and changes nothing else: no other field, no other
    room, not the KV store.  Any instant of a running clock is more than 66
    minutes after the zero instant, so the next plain message in the room
    finds both caches stale, whatever the two timestamps were before.  Its
    run begins with the config reload, which leaves the config as the
    preferences make it, followed by one event fetch for the reloaded
    calendar id.  When the fetch succeeds the fetched list is the room's
    cached list, stamped with [now], and it is the list the run scans; when
    it fails the cached list and its zero timestamp stay and the run ends
    with the fetch error. *)
Theorem C9_expire_forces_reload_and_fetch :
  let room := Evt.RoomId evt in
  let now := clock w in
  let uk := getUserSpamKey room (Evt.UserId evt) in
  let rk := getRoomSpamKey room in
  let cfg0 :=
    Config.mk (Config.RoomId cfg) (Config.CalendarId cfg) (Config.Timezone cfg)
      (Config.Autoreply cfg) (Config.AnnounceStart cfg) (Config.AnnounceEnd cfg)
      (Config.CalEvents cfg) (Config.LastReply cfg) zeroTime zeroTime in
  let cfg1 := reloaded now cfg0 in
  let calendarId := Config.CalendarId cfg1 in
  66 * Minute < clock w ->
  exists w0,
    expireCaches (Some room) w = Done tt w0
    /\ configCache w0 = <[room := cfg0]> (configCache w)
    /\ kv w0 = kv w /\ clock w0 = clock w /\ effects w0 = effects w
    /\ exists x w' post,
        handleEvt evt w0 = Done x w'
        /\ effects w' = (effects w ++ ELoadFromPrefs (Config.RoomId cfg)
                                    :: EGetEvents calendarId now :: post)%list
        /\ fetches post = []
        /\ (forall roomId, ~ In (ELoadFromPrefs roomId) post)
        /\ (exists r w1,
              LoadFromPrefs (Some room) w0 = Done r w1
              /\ configCache w1 = <[room := cfg1]> (configCache w))
        /\ match getEvents calendarId now with
           | inl evts =>
               let cfg2 := Config.set_CalEvents evts (Config.set_calTs now cfg1) in
               configCache w' = <[room := cfg2]> (configCache w)
               /\ Done x w'
                  = answer (Config.Autoreply cfg1)
                      (spamKeySet (liveValue (kv w) now uk) (liveValue (kv w) now rk))
                      now uk rk evts
                      (put room cfg2
                         (said [ELoadFromPrefs (Config.RoomId cfg);
                                EGetEvents calendarId now] w))
           | inr err =>
               configCache w' = <[room := cfg1]> (configCache w)
               /\ x = FetchFailed err
               /\ post = [EReply (fetchErrorReply err)]
           end.
Proof.
  intros room now uk rk cfg0 cfg1 calendarId Hclock.
  eexists. split; [apply (expireCaches_Some room cfg w Hroom)|].
  split; [reflexivity|]. split; [reflexivity|]. split; [reflexivity|].
  split; [reflexivity|].
  change (Config.set_configTs zeroTime (Config.set_calTs zeroTime cfg)) with cfg0.
  pose proof (handleEvt_closed evt cfg0 (put room cfg0 w) Hchat Hbody Hplain
                (lookup_put room cfg0 w)) as Hrun.
  cbv zeta in Hrun. fold room in Hrun.
  change (clock (put room cfg0 w)) with now in Hrun.
  change (kv (put room cfg0 w)) with (kv w) in Hrun.
  fold uk rk in Hrun.
  assert (Hm : MinutesOver10 (Sub now (Config.configTs cfg0)) = true).
  { apply MinutesOver10_Sub. cbn [Config.configTs cfg0]. subst now.
    unfold zeroTime, Minute, Second, Nanosecond in *. lia. }
  assert (Hh : HoursOver1_1 (Sub now (Config.calTs cfg0)) = true).
  { apply HoursOver1_1_Sub. cbn [Config.calTs cfg0]. subst now.
    unfold zeroTime, Minute, Second, Nanosecond in *. lia. }
  unfold lazyConfig, lazyLoad in Hrun. rewrite Hm, Hh in Hrun.
  fold cfg1 calendarId in Hrun.
  change (Config.RoomId cfg0) with (Config.RoomId cfg) in Hrun.
  destruct (LoadFromPrefs_exact room cfg0 (put room cfg0 w) (lookup_put room cfg0 w))
    as (r & Hload & _).
  change (clock (put room cfg0 w)) with now in Hload. fold cfg1 in Hload.
  assert (Hreload : exists r w1,
             LoadFromPrefs (Some room) (put room cfg0 w) = Done r w1
             /\ configCache w1 = <[room := cfg1]> (configCache w)).
  { eexists _, _. split; [exact Hload|].
    cbn [configCache put said with_effects with_configCache].
    apply insert_insert_eq. }
  assert (Hworld : forall cfg2,
             put room cfg2
               (said [EGetEvents calendarId now]
                  (put room cfg1
                     (said [ELoadFromPrefs (Config.RoomId cfg)] (put room cfg0 w))))
             = put room cfg2
                 (said [ELoadFromPrefs (Config.RoomId cfg);
                        EGetEvents calendarId now] w)).
  { intros cfg2. worlds. }
  destruct (getEvents calendarId now) as [evts|err] eqn:EF.
  - rewrite Hworld in Hrun. unfold answer in Hrun |- *.
    destruct (spamKeySet _ _);
      [|destruct (if Config.Autoreply cfg1 then find (isActive now) evts else None)
          as [e|]].
    all: eexists _, _, _; (split; [exact Hrun|]); (split; [traces; reflexivity|]).
    all: split; [reflexivity|].
    all: split; [intros roomId Hin; cbn [In] in Hin; intuition discriminate|].
    all: split; [exact Hreload|].
    all: split; [reflexivity|reflexivity].
  - eexists _, _, _. split; [exact Hrun|]. split; [traces; reflexivity|].
    split; [reflexivity|].
    split; [intros roomId Hin; cbn [In] in Hin; intuition discriminate|].
    split; [exact Hreload|].
    split; [|split; reflexivity].
    cbn [configCache put said with_effects with_configCache].
    by rewrite !insert_insert_eq.
Qed.

End Evaluate.

(** ** The operator commands *)

Lemma index_0 a l w : index (a :: l) 0 w = Done a w.
Proof. reflexivity. Qed.

Lemma index_1 a b l w : index (a :: b :: l) 1 w = Done b w.
Proof. reflexivity. Qed.

Lemma index_2 a b c l w : index (a :: b :: c :: l) 2 w = Done c w.
Proof. reflexivity. Qed.

#[local] Hint Resolve index_0 index_1 index_2 : run.

(** Decides the string tests of a command switch on literal words. *)
Ltac words :=
  cbn [String.eqb Ascii.eqb Bool.eqb andb negb length Nat.ltb Nat.leb Nat.eqb].

Section Commands.
Context `{Collaborators}.

Variables (evt : Evt.t) (w : World).

(** A command that reaches the switch of [handleCommand] panics in a room
    without registry entry. *)
Lemma handleCommand_unknown_room sub rest :
  BodyAsArgv (Evt.Body evt) = "!gcal" :: sub :: rest ->
  configCache w !! Evt.RoomId evt = None ->
  handleCommand evt w = Panicked NilDereference w.
Proof.
  intros Hargv Hnone. unfold handleCommand. rewrite Hargv. run. words. run.
  erewrite bind_Panicked; [reflexivity|]. by apply getCachedConfig_None.
Qed.

Lemma handleCommand_status cfg :
  BodyAsArgv (Evt.Body evt) = ["!gcal"; "status"] ->
  configCache w !! Evt.RoomId evt = Some cfg ->
  exists w', handleCommand evt w = Done tt w'.
Proof.
  intros Hargv Hsome. unfold handleCommand. rewrite Hargv. run. words. run.
  destruct (getCachedConfig_run (Evt.RoomId evt) cfg (clock w) w Hsome)
    as (cfg1 & _ & _ & _ & _ & Hcfg).
  rewrite (bind_Done _ _ _ _ _ Hcfg). run. words. run. eauto.
Qed.

Lemma handleCommand_expire cfg :
  BodyAsArgv (Evt.Body evt) = ["!gcal"; "expire"] ->
  configCache w !! Evt.RoomId evt = Some cfg ->
  exists w', handleCommand evt w = Done tt w'.
Proof.
  intros Hargv Hsome. unfold handleCommand. rewrite Hargv. run. words. run.
  destruct (getCachedConfig_run (Evt.RoomId evt) cfg (clock w) w Hsome)
    as (cfg1 & _ & _ & _ & _ & Hcfg).
  rewrite (bind_Done _ _ _ _ _ Hcfg). run. words.
  erewrite bind_Done by (eapply expireCaches_Some, lookup_put). eauto.
Qed.

Lemma handleCommand_reload cfg :
  BodyAsArgv (Evt.Body evt) = ["!gcal"; "reload"] ->
  configCache w !! Evt.RoomId evt = Some cfg ->
  exists w', handleCommand evt w = Done tt w'.
Proof.
  intros Hargv Hsome. unfold handleCommand. rewrite Hargv. run. words. run.
  destruct (getCachedConfig_run (Evt.RoomId evt) cfg (clock w) w Hsome)
    as (cfg1 & _ & _ & _ & _ & Hcfg).
  rewrite (bind_Done _ _ _ _ _ Hcfg). run. words.
  erewrite bind_Done by (eapply expireCaches_Some, lookup_put).
  match goal with
  | |- context [bind (updateCachedCalEvents ?k) _ ?w0] =>
      destruct (updateCachedCalEvents_Some k _ w0 (lookup_put _ _ _))
        as (r & cfg2 & _ & _ & _ & Hupd);
      rewrite (bind_Done _ _ _ _ _ Hupd)
  end.
  eauto.
Qed.


End Commands.

Section Rooms.
Context `{Collaborators}.

Lemma answer_Done autoreply suppressed now uk rk calEvents w :
  exists x w', answer autoreply suppressed now uk rk calEvents w = Done x w'.
Proof.
  unfold answer. destruct suppressed; [eauto|].
  destruct (if autoreply then find (isActive now) calEvents else None); eauto.
Qed.

(** C3, as amended.  The core operations take the room's config from the
    registry without a check for a missing entry.  A plain chat message and
    the status, expire and reload commands run to their end in a room that
    has its registry entry, which [initData] gives every attached room.
    There is no not-found outcome: in a room without an entry the lookup
    yields nil and the run panics on the nil dereference, before any reply
    and with the state as it was. *)
Theorem C3_registered_room_or_panic (evt : Evt.t) (w : World) :
  Evt.IsChat evt = true ->
  Evt.Body evt <> emptyString ->
  HasPrefix (TrimSpace (Evt.Body evt)) "!" = false
  \/ (HasPrefix (TrimSpace (Evt.Body evt)) "!" = true
      /\ exists sub, BodyAsArgv (Evt.Body evt) = ["!gcal"; sub]
                     /\ (sub = "status" \/ sub = "expire" \/ sub = "reload")) ->
  (forall w0, configCache (world_of (initData (Evt.RoomId evt) w0)) !! Evt.RoomId evt
              = Some (Config.zero (Evt.RoomId evt)))
  /\ (is_Some (configCache w !! Evt.RoomId evt) ->
      exists x w', handleEvt evt w = Done x w')
  /\ (configCache w !! Evt.RoomId evt = None ->
      handleEvt evt w = Panicked NilDereference w
      /\ getCachedConfig (Evt.RoomId evt) (clock w) w = Panicked NilDereference w
      /\ updateCachedCalEvents (Evt.RoomId evt) w = Panicked NilDereference w).
Proof.
  intros Hchat Hbody Hkind.
  split; [intros w0; apply lookup_insert_eq|].
  destruct Hkind as [Hplain|(Hcmd & sub & Hargv & Hsub)].
  - split.
    + intros [cfg Hsome].
      destruct (handleEvt_chat evt cfg w Hchat Hbody Hplain Hsome)
        as (cfg1 & _ & _ & _ & Hrun).
      rewrite Hrun. cbv zeta.
      destruct (HoursOver1_1 _); [destruct (getEvents _ _)|];
        eauto using answer_Done.
    + intros Hnone. split; [|split].
      * unfold handleEvt. rewrite Hchat. cbn [negb orb].
        destruct (String.eqb_spec (Evt.Body evt) emptyString) as [|_]; [done|].
        rewrite Hplain. unfold bind at 1, Now at 1.
        unfold bind at 1, GetKV at 1. unfold bind at 1, GetKV at 1.
        erewrite bind_Panicked; [reflexivity|]. by apply getCachedConfig_None.
      * by apply getCachedConfig_None.
      * by apply updateCachedCalEvents_None.
  - assert (Hhandle : handleEvt evt w = (handleCommand evt ;;; ret Commanded) w).
    { unfold handleEvt. rewrite Hchat. cbn [negb orb].
      destruct (String.eqb_spec (Evt.Body evt) emptyString) as [|_]; [done|].
      by rewrite Hcmd. }
    rewrite Hhandle. split.
    + intros [cfg Hsome].
      assert (exists w', handleCommand evt w = Done tt w') as [w' Hrun].
      { destruct Hsub as [->|[->| ->]];
          eauto using handleCommand_status, handleCommand_expire,
                      handleCommand_reload. }
      rewrite (bind_Done _ _ _ _ _ Hrun). unfold ret. eauto.
    + intros Hnone. split; [|split].
      * erewrite bind_Panicked; [reflexivity|].
        by apply (handleCommand_unknown_room evt w sub []).
      * by apply getCachedConfig_None.
      * by apply updateCachedCalEvents_None.
Qed.





End Rooms.

(** ** The properties on the sample worlds *)

(** With the room silenced and the calendar unreachable, the message is
    answered with the fetch error: the reload and the fetch ran although the
    spam key was set, and the run did not end at the already-replied check. *)
Lemma C1_counterexample :
  spamKeySet
    (liveValue (kv hushed) (clock hushed) (getUserSpamKey "ops" "alice"))
    (liveValue (kv hushed) (clock hushed) (getRoomSpamKey "ops")) = true
  /\ exists w',
      handleEvt (H := halWith true true false) hello hushed
        = Done (FetchFailed (Lit "calendar unreachable")) w'
      /\ effects w'
         = [ELoadFromPrefs "ops";
            EGetEvents "cal-1" (clock hushed);
            EReply (fetchErrorReply (Lit "calendar unreachable"))].
Proof.
  split; [vm_compute; reflexivity|].
  eexists. split; vm_compute; reflexivity.
Qed.

Lemma C1_witness :
  spamKeySet
    (liveValue (kv hushed) (clock hushed) (getUserSpamKey "ops" "alice"))
    (liveValue (kv hushed) (clock hushed) (getRoomSpamKey "ops")) = true
  /\ exists x w',
      handleEvt (H := halWith true true true) hello hushed = Done x w'
      /\ kv w' = kv hushed.
Proof.
  assert (Hsup : spamKeySet
    (liveValue (kv hushed) (clock hushed) (getUserSpamKey "ops" "alice"))
    (liveValue (kv hushed) (clock hushed) (getRoomSpamKey "ops")) = true)
    by (vm_compute; reflexivity).
  split; [exact Hsup|].
  destruct (C1_suppressed_after_lazy_refresh (H := halWith true true true)
              hello (Config.zero "ops") hushed
              eq_refl ltac:(discriminate) eq_refl
              ltac:(vm_compute; reflexivity) Hsup)
    as (x & w' & l & Hrun & _ & Hkv & _).
  exists x, w'. split; [exact Hrun | exact Hkv].
Defined.



(** Before the room is attached a message makes the handler panic. *)
Lemma C3_counterexample :
  configCache boot !! "ops" = None
  /\ handleEvt (H := halWith true true true) hello boot
     = Panicked NilDereference boot
  /\ handleEvt (H := halWith true true true)
       (Evt.mk true "!gcal status" "ops" "alice") boot
     = Panicked NilDereference boot.
Proof. repeat split; vm_compute; reflexivity. Qed.

Lemma C3_witness :
  is_Some (configCache attached !! "ops")
  /\ exists x w', handleEvt (H := halWith true true true) hello attached = Done x w'.
Proof.
  assert (Hsome : is_Some (configCache attached !! "ops")).
  { exists (Config.zero "ops"). vm_compute. reflexivity. }
  split; [exact Hsome|].
  exact (proj1 (proj2 (C3_registered_room_or_panic (H := halWith true true true)
                         hello attached eq_refl ltac:(discriminate)
                         (or_introl eq_refl))) Hsome).
Defined.

Lemma C5_witness :
  66 * Minute < clock attached - Config.calTs (Config.zero "ops")
  /\ exists x w' calendarId,
      handleEvt (H := halWith true true true) hello attached = Done x w'
      /\ fetches (skipn (length (effects attached)) (effects w'))
         = [(calendarId, clock attached)].
Proof.
  assert (Hold : 66 * Minute < clock attached - Config.calTs (Config.zero "ops"))
    by (vm_compute; reflexivity).
  split; [exact Hold|].
  destruct (C5_stale_events_one_fetch (H := halWith true true true)
              hello (Config.zero "ops") attached
              eq_refl ltac:(discriminate) eq_refl
              ltac:(vm_compute; reflexivity) Hold)
    as (x & w' & pre & post & calendarId & Hrun & Heff & Hone & _).
  exists x, w', calendarId. split; [exact Hrun|].
  rewrite Heff. exact Hone.
Defined.

Lemma C6_witness :
  spamKeySet
    (liveValue (kv warm) (clock warm) (getUserSpamKey "ops" "alice"))
    (liveValue (kv warm) (clock warm) (getRoomSpamKey "ops")) = false
  /\ exists w',
      handleEvt (H := halWith true true true) hello warm
      = Done (Notified (Lit "Daily standup")) w'.
Proof.
  assert (Hfree : spamKeySet
    (liveValue (kv warm) (clock warm) (getUserSpamKey "ops" "alice"))
    (liveValue (kv warm) (clock warm) (getRoomSpamKey "ops")) = false)
    by (vm_compute; reflexivity).
  split; [exact Hfree|].
  destruct (proj2 (C6_first_active_event (H := halWith true true true)
              hello _ warm
              eq_refl ltac:(discriminate) eq_refl
              (lookup_put "ops" _ boot) Hfree))
    as (x & w' & l & Hrun & _ & Hscan).
  assert (Hfirst : 100 * Hour < clock warm < 101 * Hour)
    by (vm_compute; split; reflexivity).
  destruct (proj1 Hscan [] standup [retro] eq_refl eq_refl ltac:(constructor) Hfirst)
    as (Hx & _).
  exists w'. rewrite Hrun, Hx. reflexivity.
Defined.


Lemma C8_witness :
  exists w',
    handleEvt (H := halWith true true true) hello warm
      = Done (Notified (Lit "Daily standup")) w'
    /\ kv w' !! getUserSpamKey "ops" "alice"
       = Some (KVEntry.mk (TimeString (Collaborators := halWith true true true) (clock warm))
                 (clock warm + 2 * Hour))
    /\ kv w' !! getRoomSpamKey "ops"
       = Some (KVEntry.mk (TimeString (Collaborators := halWith true true true) (clock warm))
                 (clock warm + 10 * Minute)).
Proof.
  assert (Hrun : handleEvt (H := halWith true true true) hello warm
                 = Done (Notified (Lit "Daily standup"))
                     (world_of (handleEvt (H := halWith true true true) hello warm)))
    by (vm_compute; reflexivity).
  destruct (C8_notified_writes_both_keys (H := halWith true true true)
              hello _ warm
              eq_refl ltac:(discriminate) eq_refl
              (lookup_put "ops" _ boot) _ _ ltac:(discriminate) Hrun)
    as (Hu & Hr & _).
  eexists. split; [exact Hrun|]. split; [exact Hu | exact Hr].
Defined.

Lemma C9_witness :
  66 * Minute < clock warm
  /\ exists w0 x w',
      expireCaches (Some "ops") warm = Done tt w0
      /\ handleEvt (H := halWith true true true) hello w0 = Done x w'.
Proof.
  assert (Hclock : 66 * Minute < clock warm) by (vm_compute; reflexivity).
  split; [exact Hclock|].
  destruct (C9_expire_forces_reload_and_fetch (H := halWith true true true)
              hello _ warm
              eq_refl ltac:(discriminate) eq_refl
              (lookup_put "ops" _ boot) Hclock)
    as (w0 & Hexp & _ & _ & _ & _ & x & w' & post & Hrun & _).
  exists w0, x, w'. split; [exact Hexp | exact Hrun].
Defined.
